(** * flask_db_admin: the click command layer over SQLAlchemy, Alembic and
      the PostgreSQL client binaries

    The module under verification is a single Python file.  Every command
    is a short sequence of effects on collaborators that live outside the
    file: the ambient Flask application, the process environment, the
    terminal, the ORM, the migration engine and child processes.  The
    embedding keeps that shape: a command is a computation in a monad [M]
    that reads the application and the outside world, threads the process
    environment and a chronological log of the calls made, and either
    returns or raises a Python exception.  A raised exception keeps the
    state reached so far, as in Python. *)

From Stdlib Require Import ZArith Ascii.
From stdpp Require Import base strings gmap list.

Open Scope string_scope.
Open Scope list_scope.

(** ** Python runtime fragment *)

Inductive type_error :=
  | MissingArgument (name : string)     (* f() missing 1 required positional argument *)
  | UnexpectedKeyword (name : string)   (* f() got an unexpected keyword argument *)
  | NoneTypePlusStr                     (* unsupported operand type(s) for +: 'NoneType' and 'str' *)
  | FormatArity                         (* '%s' % t with a tuple t not of length one *)
  | ExpectedStr.                        (* a non-str where the OS interface takes a str *)

Inductive exn :=
  | KeyError (key : string)
  | TypeError (why : type_error)
  | AttributeError (attr : string)
  | Abort                               (* click.exceptions.Abort *)
  | Foreign (tag : string).             (* raised inside a collaborator *)

Inductive result (A : Type) :=
  | Ok (a : A)
  | Raise (e : exn).
Arguments Ok {A} a.
Arguments Raise {A} e.

(** The values click hands to a callback: [None] for an option that was
    not given, a bool for a flag, a str for an option or argument, and a
    tuple of str for a variadic argument. *)
Inductive pyval :=
  | PNone
  | PBool (b : bool)
  | PStr (s : string)
  | PTuple (items : list string).

(** [v is not None] *)
Definition is_not_None (v : pyval) : bool :=
  match v with PNone => false | _ => true end.

(** Truth value of [v], as [if v] and [v and ...] take it. *)
Definition truthy (v : pyval) : bool :=
  match v with
  | PNone => false
  | PBool b => b
  | PStr s => negb (String.eqb s "")
  | PTuple items => negb (Nat.eqb (length items) 0)
  end.

(** [v == s] for a str literal [s] *)
Definition eq_str (v : pyval) (s : string) : bool :=
  match v with
  | PStr s' => String.eqb s' s
  | _ => false
  end.

(** An optional str as a Python value. *)
Definition of_option (o : option string) : pyval :=
  match o with Some s => PStr s | None => PNone end.

(** ** Module constants *)

Definition DEFAULT_DIR : string := "migrations".
Definition DEFAULT_DB_BACKUP_PATH : string := "db.pg_dump".
Definition EXT_NAME : string := "migrate".

(** ** The Flask application as this module sees it *)

(** [_MigrateConfig(directory, **kwargs)] *)
Record _MigrateConfig := {
  directory : string;
  configure_args : list (string * string) }.

(** Values found in [app.extensions]: the object this module registers
    under [EXT_NAME], and Flask-SQLAlchemy's state object, whose [db]
    attribute is the ORM handle. *)
Inductive extension :=
  | MigrateExt (mc : _MigrateConfig)
  | SQLAlchemyExt.

(** [config] holds the string settings the commands read; [extensions] is
    [None] for an application object without the attribute. *)
Record App := {
  config : gmap string string;
  extensions : option (gmap string extension) }.

(** [Migrate.init_app] *)
Definition init_app (app : App) (directory : string)
    (kwargs : list (string * string)) : App :=
  let exts := match extensions app with
              | None => ∅            (* not hasattr(app, 'extensions') *)
              | Some exts => exts
              end in
  {| config := config app;
     extensions :=
       Some (<[EXT_NAME := MigrateExt {| directory := directory;
                                         configure_args := kwargs |}]> exts) |}.

(** [Migrate.__init__] *)
Definition Migrate (app : option App) (directory : string)
    (kwargs : list (string * string)) : option App :=
  match app with
  | Some a => Some (init_app a directory kwargs)
  | None => None
  end.

(** ** The migration engine's configuration object *)

(** The attribute bag hung on [config.cmd_opts] ([lambda: None] in the
    source); [x] is [None] while the attribute does not exist. *)
Record cmd_opts_t := { x : option (list pyval) }.

(** [alembic.config.Config]: the attributes this layer reads or writes.
    [main_options] holds the options of the main ini section that were
    set through [set_main_option]. *)
Record Config := {
  config_file_name : option string;
  main_options : gmap string string;
  cmd_opts : option cmd_opts_t }.

Definition Config_new (file_ : option string) : Config :=
  {| config_file_name := file_; main_options := ∅; cmd_opts := None |}.

Definition set_main_option (name value : string) (c : Config) : Config :=
  {| config_file_name := config_file_name c;
     main_options := <[name := value]> (main_options c);
     cmd_opts := cmd_opts c |}.

Definition get_main_option (name : string) (c : Config) : option string :=
  main_options c !! name.

Definition set_cmd_opts (o : cmd_opts_t) (c : Config) : Config :=
  {| config_file_name := config_file_name c;
     main_options := main_options c;
     cmd_opts := Some o |}.

Definition set_config_file_name (file_ : string) (c : Config) : Config :=
  {| config_file_name := Some file_;
     main_options := main_options c;
     cmd_opts := cmd_opts c |}.

(** The calls this layer makes into [alembic.command], with the arguments
    it passes. *)
Inductive alembic_call :=
  | AInit (c : Config) (directory template : string)
  | ARevision (c : Config)
      (message autogenerate sql head splice branch_label version_path rev_id : pyval)
  | AMerge (c : Config) (revisions message branch_label rev_id : pyval)
  | AUpgrade (c : Config) (revision sql tag : pyval)
  | ADowngrade (c : Config) (revision sql tag : pyval)
  | AShow (c : Config) (revision : pyval)
  | AHistory (c : Config) (rev_range verbose : pyval)
  | AHeads (c : Config) (verbose resolve_dependencies : pyval)
  | ABranches (c : Config) (verbose : pyval)
  | ACurrent (c : Config) (verbose : pyval)
  | AStamp (c : Config) (revision sql tag : pyval).

Definition call_config (a : alembic_call) : Config :=
  match a with
  | AInit c _ _ | ARevision c _ _ _ _ _ _ _ _ | AMerge c _ _ _ _
  | AUpgrade c _ _ _ | ADowngrade c _ _ _ | AShow c _ | AHistory c _ _
  | AHeads c _ _ | ABranches c _ | ACurrent c _ | AStamp c _ _ _ => c
  end.

(** ** The outside world and the observable effects *)

Inductive reply := ReplyYes | ReplyNo | ReplyInterrupt.

(** What [subprocess.call] meets: the child ran and exited with a code,
    or it could not be started and the call raises. *)
Inductive proc_outcome :=
  | Exited (code : Z)
  | NotStarted (e : exn).

Record World := {
  confirm_reply : reply;                 (* the user's answer at a prompt *)
  orm_drop_all : option exn;             (* [None]: the call returns *)
  orm_create_all : option exn;
  child : list string → gmap string string → proc_outcome;
  engine : alembic_call → option exn }.

Inductive event :=
  | ELog (msg : string)                            (* logger.info *)
  | EConfirm (prompt : string)                     (* a y/N prompt shown *)
  | EDropAll                                       (* db.drop_all() *)
  | ECreateAll                                     (* db.create_all() *)
  | ESetEnv (key value : string)                   (* os.environ[key] = value *)
  | ESpawn (args : list string) (env : gmap string string)
  | EAlembic (call : alembic_call).

Record State := {
  environ : gmap string string;
  log : list event }.

(** ** The command monad *)

Definition M (A : Type) : Type := App → World → State → result A * State.

Definition ret {A} (a : A) : M A := fun _ _ s => (Ok a, s).

Definition bind {A B} (k : A → M B) (m : M A) : M B :=
  fun app w s =>
    match m app w s with
    | (Ok a, s') => k a app w s'
    | (Raise e, s') => (Raise e, s')
    end.

Definition raise {A} (e : exn) : M A := fun _ _ s => (Raise e, s).

(** stdpp's monad notations: [v ← m; k] and [m;; k]. *)
#[global] Instance M_ret : MRet M := @ret.
#[global] Instance M_bind : MBind M := @bind.

Definition current_app : M App := fun app _ s => (Ok app, s).
Definition world : M World := fun _ w s => (Ok w, s).

Definition emit (e : event) : M unit :=
  fun _ _ s => (Ok tt, {| environ := environ s; log := log s ++ [e] |}).

(** Outcome of a call into a collaborator that either returns or raises. *)
Definition outcome (o : option exn) : M unit :=
  match o with
  | None => ret tt
  | Some e => raise e
  end.

(** [d[key]] on a dict *)
Definition getitem {V} (d : gmap string V) (key : string) : M V :=
  match d !! key with
  | Some v => ret v
  | None => raise (KeyError key)
  end.

(** [logger.info(msg)] *)
Definition logger_info (msg : string) : M unit := emit (ELog msg).

(** Run a command from a given process environment with an empty log. *)
Definition exec {A} (m : M A) (app : App) (w : World)
    (env : gmap string string) : result A * State :=
  m app w {| environ := env; log := [] |}.

(** ** Library calls the commands make *)

(** [os.path.join(a, b)] (posixpath) *)
Definition endswith_sep (a : string) : bool :=
  match String.get (String.length a - 1) a with
  | Some c => Ascii.eqb c "/"%char
  | None => false
  end.

Definition os_path_join (a b : string) : string :=
  if String.prefix "/" b then b
  else if String.eqb a "" || endswith_sep a then a +:+ b
  else a +:+ "/" +:+ b.

(** [os.environ[key] = value] *)
Definition setenv (key value : string) : M unit :=
  fun _ _ s =>
    (Ok tt, {| environ := <[key := value]> (environ s);
               log := log s ++ [ESetEnv key value] |}).

Definition get_environ : M (gmap string string) :=
  fun _ _ s => (Ok (environ s), s).

(** [o + suffix] where [o] is the result of [dict.get] *)
Definition add_str (o : option string) (suffix : string) : M string :=
  match o with
  | Some s => ret (s +:+ suffix)
  | None => raise (TypeError NoneTypePlusStr)
  end.

(** [prefix_ % v] for a format with a single [%s] at its end *)
Definition percent_s (prefix_ : string) (v : pyval) : M string :=
  match v with
  | PStr s => ret (prefix_ +:+ s)
  | PNone => ret (prefix_ +:+ "None")
  | PBool true => ret (prefix_ +:+ "True")
  | PBool false => ret (prefix_ +:+ "False")
  | PTuple [s] => ret (prefix_ +:+ s)
  | PTuple _ => raise (TypeError FormatArity)
  end.

(** The program arguments as the OS takes them: every one a str. *)
Fixpoint as_argv (args : list pyval) : option (list string) :=
  match args with
  | [] => Some []
  | PStr s :: rest =>
      match as_argv rest with
      | Some argv => Some (s :: argv)
      | None => None
      end
  | _ :: _ => None
  end.

(** [subprocess.call(args)]: runs the child with the current process
    environment, waits for it and returns its exit code. *)
Definition subprocess_call (args : list pyval) : M Z :=
  match as_argv args with
  | None => raise (TypeError ExpectedStr)
  | Some argv =>
      env ← get_environ;
      emit (ESpawn argv env);;
      w ← world;
      match child w argv env with
      | Exited code => ret code
      | NotStarted e => raise e
      end
  end.

(** [current_app.extensions] *)
Definition app_extensions : M (gmap string extension) :=
  app ← current_app;
  match extensions app with
  | Some exts => ret exts
  | None => raise (AttributeError "extensions")
  end.

(** [current_app.extensions['sqlalchemy'].db] *)
Definition sqlalchemy_db : M unit :=
  exts ← app_extensions;
  ext ← getitem exts "sqlalchemy";
  match ext with
  | SQLAlchemyExt => ret tt
  | MigrateExt _ => raise (AttributeError "db")
  end.

Definition db_drop_all : M unit :=
  sqlalchemy_db;;
  emit EDropAll;;
  w ← world;
  outcome (orm_drop_all w).

Definition db_create_all : M unit :=
  sqlalchemy_db;;
  emit ECreateAll;;
  w ← world;
  outcome (orm_create_all w).

(** [current_app.extensions[EXT_NAME].directory] *)
Definition ext_directory : M string :=
  exts ← app_extensions;
  ext ← getitem exts EXT_NAME;
  match ext with
  | MigrateExt mc => ret (directory mc)
  | SQLAlchemyExt => raise (AttributeError "directory")
  end.

(** [current_app.config[key]] and [current_app.config.get(key)] *)
Definition config_getitem (key : string) : M string :=
  app ← current_app;
  getitem (config app) key.

Definition config_get (key : string) : M (option string) :=
  app ← current_app;
  ret (config app !! key).

(** A call [alembic.command.f(...)]. *)
Definition alembic_command (call : alembic_call) : M unit :=
  emit (EAlembic call);;
  w ← world;
  outcome (engine w call).

(** [click.confirm(text)]: shows the prompt; [True] on yes, [False] on
    no, [Abort] when the prompt is interrupted. *)
Definition click_confirm (text : string) : M bool :=
  emit (EConfirm text);;
  w ← world;
  match confirm_reply w with
  | ReplyYes => ret true
  | ReplyNo => ret false
  | ReplyInterrupt => raise Abort
  end.

(** ** Callbacks and how click calls them *)

(** A [def] with required parameters only. *)
Record callback := {
  formals : list string;
  body : list pyval → M unit }.

(** Python's binding of keyword arguments to the formals: an argument
    that names no formal is rejected first, then a formal left without a
    value. *)
Fixpoint bind_formals (fs : list string) (kwargs : list (string * pyval))
    : result (list pyval) :=
  match fs with
  | [] => Ok []
  | f :: rest =>
      match list_find (λ kv, kv.1 = f) kwargs with
      | None => Raise (TypeError (MissingArgument f))
      | Some (_, (_, v)) =>
          match bind_formals rest kwargs with
          | Ok vs => Ok (v :: vs)
          | Raise e => Raise e
          end
      end
  end.

Definition call (f : callback) (kwargs : list (string * pyval)) : M unit :=
  match list_find (λ kv, kv.1 ∉ formals f) kwargs with
  | Some (_, (k, _)) => raise (TypeError (UnexpectedKeyword k))
  | None =>
      match bind_formals (formals f) kwargs with
      | Ok vs => body f vs
      | Raise e => raise e
      end
  end.

(** [click.confirmation_option]: the [--yes] flag, prompted for when not
    given; its value is not passed on, and the command is aborted unless
    the value is true. *)
Definition confirmation_option (yes : bool) (cmd : M unit) : M unit :=
  value ← (if yes then ret true else click_confirm "Do you want to continue?");
  if (value : bool) then cmd else raise Abort.

(** ** The module's functions *)

(** Taken by a [body] handed a number of values other than the number of
    its formals; [call] never does that (see [bind_formals_length]). *)
Definition arity_mismatch : M unit := ret tt.

Definition _get_config (x_arg : pyval) : M Config :=
  directory ← ext_directory;
  let config := Config_new (Some (os_path_join directory "alembic.ini")) in
  let config := set_main_option "script_location" directory config in
  let config :=
    if is_not_None x_arg then
      let opts := match cmd_opts config with
                  | None => {| x := None |}   (* config.cmd_opts = lambda: None *)
                  | Some opts => opts
                  end in
      let xs := match x opts with
                | None | Some [] => []        (* not getattr(config.cmd_opts, 'x', None) *)
                | Some xs => xs
                end in
      set_cmd_opts {| x := Some (xs ++ [x_arg]) |} config
    else config in
  ret config.

Definition create_all : callback :=
  {| formals := [];
     body := λ _,
       logger_info "creating all";;
       db_create_all |}.

Definition drop_all : callback :=
  {| formals := [];
     body := λ _,
       logger_info "dropping all";;
       db_drop_all |}.

Definition reset_all : callback :=
  {| formals := [];
     body := λ _,
       confirmed ← click_confirm "Are you sure you want to drop all data?";
       if (confirmed : bool) then
         logger_info "dropping all";;
         db_drop_all;;
         logger_info "creating all";;
         db_create_all
       else ret tt |}.

Definition dump : callback :=
  {| formals := ["location"];
     body := λ args,
       match args with
       | [location] =>
           password ← config_getitem "PG_PASSWORD";
           setenv "PGPASSWORD" password;;
           bin_dir ← config_get "PG_BIN_DIR";
           pg_dump ← add_str bin_dir "pg_dump";
           host ← config_getitem "PG_HOST";
           username ← config_getitem "PG_USERNAME";
           db_name ← config_getitem "PG_DB_NAME";
           file_ ← percent_s "--file=" location;
           subprocess_call
             [PStr pg_dump;
              PStr ("--host=" +:+ host);
              PStr ("--username=" +:+ username);
              PStr "--format=c";
              PStr db_name;
              PStr file_];;
           ret tt
       | _ => arity_mismatch
       end |}.

Definition restore : callback :=
  {| formals := ["location"];
     body := λ args,
       match args with
       | [location] =>
           password ← config_getitem "PG_PASSWORD";
           setenv "PGPASSWORD" password;;
           bin_dir ← config_get "PG_BIN_DIR";
           pg_restore ← add_str bin_dir "pg_restore";
           host ← config_getitem "PG_HOST";
           username ← config_getitem "PG_USERNAME";
           db_name ← config_getitem "PG_DB_NAME";
           subprocess_call
             [PStr pg_restore;
              PStr ("--host=" +:+ host);
              PStr ("--username=" +:+ username);
              PStr ("--dbname=" +:+ db_name);
              PStr "--clean";
              location];;
           ret tt
       | _ => arity_mismatch
       end |}.

Definition init : callback :=
  {| formals := [];
     body := λ _,
       directory ← ext_directory;
       let config := Config_new None in
       let config := set_main_option "script_location" directory config in
       let config :=
         set_config_file_name (os_path_join directory "alembic.ini") config in
       alembic_command (AInit config directory "flask") |}.

Definition revision : callback :=
  {| formals := ["message"; "autogenerate"; "sql"; "head"; "splice";
                 "branch_label"; "version_path"; "rev_id"];
     body := λ args,
       match args with
       | [message; autogenerate; sql; head; splice;
          branch_label; version_path; rev_id] =>
           config ← _get_config PNone;
           alembic_command
             (ARevision config message autogenerate sql head splice
                branch_label version_path rev_id)
       | _ => arity_mismatch
       end |}.

Definition merge : callback :=
  {| formals := ["revisions"; "message"; "branch_label"; "rev_id"];
     body := λ args,
       match args with
       | [revisions; message; branch_label; rev_id] =>
           config ← _get_config PNone;
           alembic_command (AMerge config revisions message branch_label rev_id)
       | _ => arity_mismatch
       end |}.

Definition upgrade : callback :=
  {| formals := ["revision"; "sql"; "tag"; "x_arg"];
     body := λ args,
       match args with
       | [revision; sql; tag; x_arg] =>
           config ← _get_config x_arg;
           alembic_command (AUpgrade config revision sql tag)
       | _ => arity_mismatch
       end |}.

Definition downgrade : callback :=
  {| formals := ["revision"; "sql"; "tag"; "x_arg"];
     body := λ args,
       match args with
       | [revision; sql; tag; x_arg] =>
           config ← _get_config x_arg;
           let revision :=
             if truthy sql && eq_str revision "-1" then PStr "head:-1"
             else revision in
           alembic_command (ADowngrade config revision sql tag)
       | _ => arity_mismatch
       end |}.

Definition show : callback :=
  {| formals := ["revision"];
     body := λ args,
       match args with
       | [revision] =>
           config ← _get_config PNone;
           alembic_command (AShow config revision)
       | _ => arity_mismatch
       end |}.

Definition history : callback :=
  {| formals := ["rev_range"; "verbose"];
     body := λ args,
       match args with
       | [rev_range; verbose] =>
           config ← _get_config PNone;
           alembic_command (AHistory config rev_range verbose)
       | _ => arity_mismatch
       end |}.

Definition heads : callback :=
  {| formals := ["verbose"; "resolve_dependencies"];
     body := λ args,
       match args with
       | [verbose; resolve_dependencies] =>
           config ← _get_config PNone;
           alembic_command (AHeads config verbose resolve_dependencies)
       | _ => arity_mismatch
       end |}.

Definition branches : callback :=
  {| formals := ["verbose"];
     body := λ args,
       match args with
       | [verbose] =>
           config ← _get_config PNone;
           alembic_command (ABranches config verbose)
       | _ => arity_mismatch
       end |}.

Definition current : callback :=
  {| formals := ["verbose"; "head_only"];
     body := λ args,
       match args with
       | [verbose; head_only] =>
           config ← _get_config PNone;
           alembic_command (ACurrent config verbose)
       | _ => arity_mismatch
       end |}.

Definition stamp : callback :=
  {| formals := ["revision"; "sql"; "tag"];
     body := λ args,
       match args with
       | [revision; sql; tag] =>
           config ← _get_config PNone;
           alembic_command (AStamp config revision sql tag)
       | _ => arity_mismatch
       end |}.

(** ** The command line: what click passes for each command

    A command takes what the user typed, already parsed: [None] for an
    option or argument left out.  Click fills in the declared default and
    calls the callback with one keyword argument per exposed parameter. *)

(** [db create-all] *)
Definition cli_create_all : M unit := call create_all [].

(** [db drop-all [--yes]] *)
Definition cli_drop_all (yes : bool) : M unit :=
  confirmation_option yes (call drop_all []).

(** [db reset-all] *)
Definition cli_reset_all : M unit := call reset_all [].

(** [db pg dump [-l PATH]] *)
Definition cli_dump (location : option string) : M unit :=
  call dump [("location", PStr (default DEFAULT_DB_BACKUP_PATH location))].

(** [db pg restore [-l PATH]] *)
Definition cli_restore (location : option string) : M unit :=
  call restore [("location", PStr (default DEFAULT_DB_BACKUP_PATH location))].

(** [db migrate init] *)
Definition cli_init : M unit := call init [].

(** [db migrate revision ...] *)
Definition cli_revision (message : option string) (autogenerate sql : bool)
    (head : option string) (splice : bool)
    (branch_label version_path rev_id : option string) : M unit :=
  call revision
    [("message", of_option message);
     ("autogenerate", PBool autogenerate);
     ("sql", PBool sql);
     ("head", PStr (default "head" head));
     ("splice", PBool splice);
     ("branch_label", of_option branch_label);
     ("version_path", of_option version_path);
     ("rev_id", of_option rev_id)].

(** [db migrate merge REVISIONS...] *)
Definition cli_merge (revisions : list string)
    (message branch_label rev_id : option string) : M unit :=
  call merge
    [("revisions", PTuple revisions);
     ("message", of_option message);
     ("branch_label", of_option branch_label);
     ("rev_id", of_option rev_id)].

(** [db migrate upgrade [REVISION]] *)
Definition cli_upgrade (revision tag : option string) (sql : bool)
    (x_arg : option string) : M unit :=
  call upgrade
    [("revision", PStr (default "head" revision));
     ("tag", of_option tag);
     ("sql", PBool sql);
     ("x_arg", of_option x_arg)].

(** [db migrate downgrade [REVISION]] *)
Definition cli_downgrade (revision tag : option string) (sql : bool)
    (x_arg : option string) : M unit :=
  call downgrade
    [("revision", PStr (default "-1" revision));
     ("tag", of_option tag);
     ("sql", PBool sql);
     ("x_arg", of_option x_arg)].

(** [db migrate show [REVISION]] *)
Definition cli_show (revision : option string) : M unit :=
  call show [("revision", PStr (default "head" revision))].

(** [db migrate history] *)
Definition cli_history (verbose : bool) (rev_range : option string) : M unit :=
  call history [("verbose", PBool verbose); ("rev_range", of_option rev_range)].

(** [db migrate heads] *)
Definition cli_heads (resolve_dependencies verbose : bool) : M unit :=
  call heads
    [("resolve_dependencies", PBool resolve_dependencies);
     ("verbose", PBool verbose)].

(** [db migrate branches] *)
Definition cli_branches (verbose : bool) : M unit :=
  call branches [("verbose", PBool verbose)].

(** [db migrate current] *)
Definition cli_current (verbose : bool) : M unit :=
  call current [("verbose", PBool verbose)].

(** [db migrate stamp [REVISION]] *)
Definition cli_stamp (tag : option string) (sql : bool)
    (revision : option string) : M unit :=
  call stamp
    [("tag", of_option tag);
     ("sql", PBool sql);
     ("revision", PStr (default "head" revision))].

(** ** Reading a run *)

Definition is_drop (e : event) : bool :=
  match e with EDropAll => true | _ => false end.

Definition is_create (e : event) : bool :=
  match e with ECreateAll => true | _ => false end.

Definition is_spawn (e : event) : bool :=
  match e with ESpawn _ _ => true | _ => false end.

Definition is_alembic (e : event) : bool :=
  match e with EAlembic _ => true | _ => false end.

(** How many events of a run satisfy [p]. *)
Definition count (p : event → bool) (l : list event) : nat :=
  length (List.filter p l).

(** The argument lists handed to [subprocess.call], in order. *)
Definition spawned (l : list event) : list (list string) :=
  omap (λ e, match e with ESpawn args _ => Some args | _ => None end) l.

(** The calls made into the migration engine, in order. *)
Definition engine_calls (l : list event) : list alembic_call :=
  omap (λ e, match e with EAlembic c => Some c | _ => None end) l.

(** The target revision of a [downgrade] call. *)
Definition downgrade_target (c : alembic_call) : option pyval :=
  match c with
  | ADowngrade _ revision _ _ => Some revision
  | _ => None
  end.

(** The argument lists the two backup commands build from the settings
    [PG_BIN_DIR], [PG_HOST], [PG_USERNAME], [PG_DB_NAME] and the location
    option. *)
Definition dump_argv (bin host user db : string)
    (location : option string) : list string :=
  [bin +:+ "pg_dump"; "--host=" +:+ host; "--username=" +:+ user;
   "--format=c"; db;
   "--file=" +:+ default DEFAULT_DB_BACKUP_PATH location].

Definition restore_argv (bin host user db : string)
    (location : option string) : list string :=
  [bin +:+ "pg_restore"; "--host=" +:+ host; "--username=" +:+ user;
   "--dbname=" +:+ db; "--clean";
   default DEFAULT_DB_BACKUP_PATH location].

(** The application configuration has the five settings. *)
Definition configured (app : App) (pw bin host user db : string) : Prop :=
  config app !! "PG_PASSWORD" = Some pw
  ∧ config app !! "PG_BIN_DIR" = Some bin
  ∧ config app !! "PG_HOST" = Some host
  ∧ config app !! "PG_USERNAME" = Some user
  ∧ config app !! "PG_DB_NAME" = Some db.

(** Sample collaborators for the examples. *)
Definition sample_world : World :=
  {| confirm_reply := ReplyYes;
     orm_drop_all := None;
     orm_create_all := None;
     child := λ _ _, Exited 0;
     engine := λ _, None |}.

Definition sample_app : App :=
  {| config :=
       {[ "PG_PASSWORD" := "s3cret"; "PG_BIN_DIR" := "/usr/bin/";
          "PG_HOST" := "db1"; "PG_USERNAME" := "admin";
          "PG_DB_NAME" := "app" ]};
     extensions :=
       Some {[ EXT_NAME := MigrateExt {| directory := DEFAULT_DIR;
                                         configure_args := [] |};
               "sqlalchemy" := SQLAlchemyExt ]} |}.


(** The [migrate] group: a subcommand with what the user typed. *)
Inductive migrate_cmd :=
  | CmdInit
  | CmdRevision (message : option string) (autogenerate sql : bool)
      (head : option string) (splice : bool)
      (branch_label version_path rev_id : option string)
  | CmdMerge (revisions : list string)
      (message branch_label rev_id : option string)
  | CmdUpgrade (revision tag : option string) (sql : bool) (x_arg : option string)
  | CmdDowngrade (revision tag : option string) (sql : bool) (x_arg : option string)
  | CmdShow (revision : option string)
  | CmdHistory (verbose : bool) (rev_range : option string)
  | CmdHeads (resolve_dependencies verbose : bool)
  | CmdBranches (verbose : bool)
  | CmdCurrent (verbose : bool)
  | CmdStamp (tag : option string) (sql : bool) (revision : option string).

Definition migrate_cli (c : migrate_cmd) : M unit :=
  match c with
  | CmdInit => cli_init
  | CmdRevision message autogenerate sql head splice
      branch_label version_path rev_id =>
      cli_revision message autogenerate sql head splice
        branch_label version_path rev_id
  | CmdMerge revisions message branch_label rev_id =>
      cli_merge revisions message branch_label rev_id
  | CmdUpgrade revision tag sql x_arg => cli_upgrade revision tag sql x_arg
  | CmdDowngrade revision tag sql x_arg => cli_downgrade revision tag sql x_arg
  | CmdShow revision => cli_show revision
  | CmdHistory verbose rev_range => cli_history verbose rev_range
  | CmdHeads resolve_dependencies verbose => cli_heads resolve_dependencies verbose
  | CmdBranches verbose => cli_branches verbose
  | CmdCurrent verbose => cli_current verbose
  | CmdStamp tag sql revision => cli_stamp tag sql revision
  end.

(** The migrations directory stored in the application's extension
    configuration, when there is one. *)
Definition migrations_dir (app : App) : option string :=
  match extensions app with
  | Some exts =>
      match exts !! EXT_NAME with
      | Some (MigrateExt mc) => Some (directory mc)
      | _ => None
      end
  | None => None
  end.

(** The ORM handle is reachable from the application. *)
Definition orm_registered (app : App) : Prop :=
  ∃ exts, extensions app = Some exts ∧ exts !! "sqlalchemy" = Some SQLAlchemyExt.

(** The world in which every child process runs and exits with [code]. *)
Definition exits (code : Z) (w : World) : World :=
  {| confirm_reply := confirm_reply w;
     orm_drop_all := orm_drop_all w;
     orm_create_all := orm_create_all w;
     child := λ _ _, Exited code;
     engine := engine w |}.

(** The target revisions of the [downgrade] calls of a run. *)
Definition downgrade_targets (l : list event) : list pyval :=
  omap downgrade_target (engine_calls l).

(** The configuration [_get_config] arrives at for a migrations directory
    and the value of [-x]. *)
Definition built_config (d : string) (x_arg : pyval) : Config :=
  {| config_file_name := Some (os_path_join d "alembic.ini");
     main_options := {[ "script_location" := d ]};
     cmd_opts := if is_not_None x_arg then Some {| x := Some [x_arg] |}
                 else None |}.

(** What a call into a collaborator gives back to the command. *)
Definition returned (o : option exn) : result unit :=
  match o with
  | None => Ok tt
  | Some e => Raise e
  end.

(** An application with extensions but none under ['sqlalchemy']. *)
Definition no_orm_app : App :=
  {| config := ∅;
     extensions :=
       Some {[ EXT_NAME := MigrateExt {| directory := DEFAULT_DIR;
                                         configure_args := [] |} ]} |}.

(** An application the [Migrate] extension was never set up on. *)
Definition bare_app : App :=
  {| config := ∅; extensions := Some ∅ |}.

(** A world whose ORM drop fails and whose children cannot be started. *)
Definition failing_world : World :=
  {| confirm_reply := ReplyYes;
     orm_drop_all := Some (Foreign "OperationalError");
     orm_create_all := None;
     child := λ _ _, NotStarted (Foreign "FileNotFoundError");
     engine := λ _, Some (Foreign "CommandError") |}.

(** * Properties *)

(** ** Calling conventions *)

Lemma bind_formals_length fs kwargs vs :
  bind_formals fs kwargs = Ok vs → length vs = length fs.
Proof.
  revert vs. induction fs as [|f fs IH]; intros vs; simpl.
  - by intros [= <-].
  - destruct (list_find _ kwargs) as [[? [? v]]|]; [|done].
    destruct (bind_formals fs kwargs) as [vs'|]; [|done].
    intros [= <-]. simpl. by rewrite (IH vs').
Qed.

(** Each command line binds: click's keyword arguments are exactly the
    callback's formals, for every command but [current]. *)
Lemma call_nullary (f : callback) :
  formals f = [] → call f [] = body f [].
Proof. intros Hf. unfold call. by rewrite Hf. Qed.

Lemma call_location (f : callback) location :
  formals f = ["location"] → call f [("location", location)] = body f [location].
Proof. intros Hf. unfold call. by rewrite Hf. Qed.

Lemma call_revision message autogenerate sql head splice
    branch_label version_path rev_id :
  call revision
    [("message", message); ("autogenerate", autogenerate); ("sql", sql);
     ("head", head); ("splice", splice); ("branch_label", branch_label);
     ("version_path", version_path); ("rev_id", rev_id)] =
  body revision [message; autogenerate; sql; head; splice;
                 branch_label; version_path; rev_id].
Proof. reflexivity. Qed.

Lemma call_merge revisions message branch_label rev_id :
  call merge
    [("revisions", revisions); ("message", message);
     ("branch_label", branch_label); ("rev_id", rev_id)] =
  body merge [revisions; message; branch_label; rev_id].
Proof. reflexivity. Qed.

Lemma call_upgrade revision tag sql x_arg :
  call upgrade
    [("revision", revision); ("tag", tag); ("sql", sql); ("x_arg", x_arg)] =
  body upgrade [revision; sql; tag; x_arg].
Proof. reflexivity. Qed.

Lemma call_downgrade revision tag sql x_arg :
  call downgrade
    [("revision", revision); ("tag", tag); ("sql", sql); ("x_arg", x_arg)] =
  body downgrade [revision; sql; tag; x_arg].
Proof. reflexivity. Qed.

Lemma call_show revision :
  call show [("revision", revision)] = body show [revision].
Proof. reflexivity. Qed.

Lemma call_history verbose rev_range :
  call history [("verbose", verbose); ("rev_range", rev_range)] =
  body history [rev_range; verbose].
Proof. reflexivity. Qed.

Lemma call_heads resolve_dependencies verbose :
  call heads
    [("resolve_dependencies", resolve_dependencies); ("verbose", verbose)] =
  body heads [verbose; resolve_dependencies].
Proof. reflexivity. Qed.

Lemma call_branches verbose :
  call branches [("verbose", verbose)] = body branches [verbose].
Proof. reflexivity. Qed.

Lemma call_stamp tag sql revision :
  call stamp [("tag", tag); ("sql", sql); ("revision", revision)] =
  body stamp [revision; sql; tag].
Proof. reflexivity. Qed.

Lemma call_current verbose :
  call current [("verbose", verbose)] =
  raise (TypeError (MissingArgument "head_only")).
Proof. reflexivity. Qed.

(** ** Running computations *)

Lemma run_bind {A B} (m : M A) (k : A → M B) app w s :
  (m ≫= k) app w s =
  match m app w s with
  | (Ok a, s') => k a app w s'
  | (Raise e, s') => (Raise e, s')
  end.
Proof. reflexivity. Qed.

Lemma bind_ok {A B} (m : M A) (k : A → M B) app w s a s' :
  m app w s = (Ok a, s') → (m ≫= k) app w s = k a app w s'.
Proof. intros H. by rewrite run_bind, H. Qed.

Lemma bind_raise {A B} (m : M A) (k : A → M B) app w s e s' :
  m app w s = (Raise e, s') → (m ≫= k) app w s = (Raise e, s').
Proof. intros H. by rewrite run_bind, H. Qed.

(** Unfolds the primitive effects down to state transformers. *)
Ltac run :=
  cbv beta iota zeta delta
    [exec mbind M_bind bind mret M_ret ret raise outcome
     config_getitem config_get getitem current_app world emit setenv
     get_environ add_str logger_info alembic_command click_confirm
     arity_mismatch app_extensions sqlalchemy_db db_drop_all db_create_all
     ext_directory subprocess_call confirmation_option] in *.

Lemma ext_directory_ok app w s d :
  migrations_dir app = Some d → ext_directory app w s = (Ok d, s).
Proof.
  unfold migrations_dir. run.
  destruct (extensions app) as [exts|]; [|done].
  destruct (exts !! EXT_NAME) as [[mc|]|]; try done.
  by intros [= <-].
Qed.

Lemma ext_directory_raise app w s :
  migrations_dir app = None → ∃ e, ext_directory app w s = (Raise e, s).
Proof.
  unfold migrations_dir. run.
  destruct (extensions app) as [exts|]; [|by eexists].
  destruct (exts !! EXT_NAME) as [[mc|]|]; by eauto.
Qed.

(** ** The configuration adapter *)

Lemma get_config_ok x_arg app w s d :
  migrations_dir app = Some d →
  ∃ c, _get_config x_arg app w s = (Ok c, s)
       ∧ get_main_option "script_location" c = Some d
       ∧ config_file_name c = Some (os_path_join d "alembic.ini").
Proof.
  intros Hd. unfold _get_config.
  rewrite (bind_ok _ _ _ _ _ _ _ (ext_directory_ok _ w s _ Hd)).
  eexists. split; [reflexivity|].
  unfold get_main_option.
  destruct (is_not_None x_arg); simpl; by rewrite lookup_insert_eq.
Qed.

Lemma get_config_raise x_arg app w s :
  migrations_dir app = None → ∃ e, _get_config x_arg app w s = (Raise e, s).
Proof.
  intros Hd. destruct (ext_directory_raise app w s Hd) as [e He].
  exists e. unfold _get_config. by rewrite (bind_raise _ _ _ _ _ _ _ He).
Qed.

Lemma alembic_command_log call app w s :
  log (alembic_command call app w s).2 = log s ++ [EAlembic call].
Proof. run. simpl. by destruct (engine w call). Qed.

Lemma alembic_command_result call app w s :
  (alembic_command call app w s).1 =
  match engine w call with None => Ok tt | Some e => Raise e end.
Proof. run. simpl. by destruct (engine w call). Qed.

(** A subcommand that builds its configuration with [_get_config] and
    hands it to the engine makes exactly that one call when the
    migrations directory is registered, and none otherwise. *)
Lemma engine_calls_with_config x_arg (F : Config → alembic_call) app w env :
  match migrations_dir app with
  | Some d =>
      ∃ c, get_main_option "script_location" c = Some d
           ∧ engine_calls
               (log (exec (config ← _get_config x_arg; alembic_command (F config))
                       app w env).2) = [F c]
  | None =>
      engine_calls
        (log (exec (config ← _get_config x_arg; alembic_command (F config))
                app w env).2) = []
  end.
Proof.
  unfold exec. destruct (migrations_dir app) as [d|] eqn:Hd.
  - destruct (get_config_ok x_arg app w {| environ := env; log := [] |} d Hd)
      as (c & Hc & Hloc & _).
    exists c. split; [done|].
    by rewrite (bind_ok _ _ _ _ _ _ _ Hc), alembic_command_log.
  - destruct (get_config_raise x_arg app w {| environ := env; log := [] |} Hd)
      as [e He].
    by rewrite (bind_raise _ _ _ _ _ _ _ He).
Qed.

Lemma engine_calls_init app w env :
  match migrations_dir app with
  | Some d =>
      ∃ c, get_main_option "script_location" c = Some d
           ∧ engine_calls (log (exec cli_init app w env).2) = [AInit c d "flask"]
  | None => engine_calls (log (exec cli_init app w env).2) = []
  end.
Proof.
  unfold cli_init, exec. rewrite call_nullary by done. simpl.
  destruct (migrations_dir app) as [d|] eqn:Hd.
  - eexists. split; [|
      by rewrite (bind_ok _ _ _ _ _ _ _ (ext_directory_ok _ w _ _ Hd)),
                 alembic_command_log].
    unfold get_main_option. simpl. by rewrite lookup_insert_eq.
  - destruct (ext_directory_raise app w {| environ := env; log := [] |} Hd)
      as [e He].
    by rewrite (bind_raise _ _ _ _ _ _ _ He).
Qed.

(** Every call a [migrate] subcommand makes into the engine carries a
    configuration whose script location is the registered directory. *)
Lemma migrate_cli_calls cmd app w env call :
  call ∈ engine_calls (log (exec (migrate_cli cmd) app w env).2) →
  get_main_option "script_location" (call_config call) = migrations_dir app.
Proof.
  destruct cmd; simpl;
    unfold cli_revision, cli_merge, cli_upgrade, cli_downgrade, cli_show,
      cli_history, cli_heads, cli_branches, cli_current, cli_stamp;
    rewrite ?call_revision, ?call_merge, ?call_upgrade, ?call_downgrade,
      ?call_show, ?call_history, ?call_heads, ?call_branches, ?call_stamp,
      ?call_current.
  1: { pose proof (engine_calls_init app w env) as H.
       destruct (migrations_dir app) as [d|].
       - destruct H as (c & Hc & ->). by intros ->%list_elem_of_singleton.
       - rewrite H. by intros ?%elem_of_nil. }
  9: { unfold exec. run. simpl. by intros ?%elem_of_nil. }
  all: simpl;
    match goal with
    | |- context [_get_config ?x ≫= λ config, alembic_command (@?F config)] =>
        pose proof (engine_calls_with_config x F app w env) as H
    end;
    destruct (migrations_dir app) as [d|];
    [ destruct H as (c & Hc & ->); by intros ->%list_elem_of_singleton
    | rewrite H; by intros ?%elem_of_nil ].
Qed.

(** The directory handed to [Migrate] is the one the commands read. *)
Lemma migrations_dir_init_app app d kwargs :
  migrations_dir (init_app app d kwargs) = Some d.
Proof. unfold migrations_dir, init_app. simpl. by rewrite lookup_insert_eq. Qed.

(** ** Migration subcommands *)

(** C6: every configuration object this layer builds for the migration
    engine, by [_get_config] for any [-x] argument and by [init], has
    its [script_location] main option equal to the migrations directory
    registered in the application's extensions; so does the
    configuration of every call a [migrate] subcommand makes. *)
Theorem script_location_is_migrations_dir app d :
  migrations_dir app = Some d →
  (∀ x_arg w s,
     ∃ c, _get_config x_arg app w s = (Ok c, s)
          ∧ get_main_option "script_location" c = Some d)
  ∧ (∀ w env,
       ∃ c, engine_calls (log (exec cli_init app w env).2) = [AInit c d "flask"]
            ∧ get_main_option "script_location" c = Some d)
  ∧ (∀ cmd w env call,
       call ∈ engine_calls (log (exec (migrate_cli cmd) app w env).2) →
       get_main_option "script_location" (call_config call) = Some d).
Proof.
  intros Hd. split; [|split].
  - intros x_arg w s.
    destruct (get_config_ok x_arg app w s d Hd) as (c & Hc & Hloc & _). eauto.
  - intros w env. pose proof (engine_calls_init app w env) as H.
    rewrite Hd in H. destruct H as (c & Hloc & Hcalls). eauto.
  - intros cmd w env call Hin. rewrite <- Hd.
    by apply (migrate_cli_calls cmd app w env).
Qed.

Lemma script_location_is_migrations_dir_witness :
  migrations_dir sample_app = Some "migrations"
  ∧ ∃ c, _get_config (PStr "k=v") sample_app sample_world
           {| environ := ∅; log := [] |}
         = (Ok c, {| environ := ∅; log := [] |})
         ∧ get_main_option "script_location" c = Some "migrations".
Proof.
  split; [reflexivity|].
  apply (script_location_is_migrations_dir sample_app "migrations").
  reflexivity.
Defined.

(** C9: [db migrate current] always fails with the missing-argument
    TypeError for [head_only], whatever [-v] is, before anything is done:
    the log is empty, so the migration engine is never called. *)
Theorem current_never_reaches_engine verbose app w env :
  exec (cli_current verbose) app w env =
    (Raise (TypeError (MissingArgument "head_only")),
     {| environ := env; log := [] |})
  ∧ engine_calls (log (exec (cli_current verbose) app w env).2) = [].
Proof. unfold cli_current. rewrite call_current. by split. Qed.

(** The targets [downgrade --sql] hands to the engine. *)
Lemma sql_downgrade_run app w env revision tag x_arg d :
  migrations_dir app = Some d →
  downgrade_targets
    (log (exec (cli_downgrade revision tag true x_arg) app w env).2) =
  [if String.eqb (default "-1" revision) "-1" then PStr "head:-1"
   else PStr (default "-1" revision)].
Proof.
  intros Hd. unfold cli_downgrade. rewrite call_downgrade. simpl.
  match goal with
  | |- context [_get_config ?x ≫= λ config, alembic_command (@?F config)] =>
      pose proof (engine_calls_with_config x F app w env) as H
  end.
  rewrite Hd in H. destruct H as (c & _ & Hcalls).
  unfold downgrade_targets. by rewrite Hcalls.
Qed.

(** C1 (as stated, refuted): with [--sql], the explicitly supplied
    revision [-1] is not passed through unchanged; the engine receives
    [head:-1]. *)
Lemma downgrade_explicit_minus_one_rewritten :
  downgrade_targets
    (log (exec (cli_downgrade (Some "-1") None true None)
            sample_app sample_world ∅).2) = [PStr "head:-1"]
  ∧ downgrade_targets
      (log (exec (cli_downgrade (Some "-1") None true None)
              sample_app sample_world ∅).2) ≠ [PStr "-1"].
Proof. split; [reflexivity|]. intros H. vm_compute in H. discriminate H. Qed.

(** C1 (amended): for every [downgrade] invocation with [--sql] in an
    application with a registered migrations directory, the engine is
    called once; its target is [head:-1] when the revision is left out
    or is given as [-1], and the revision as given otherwise. *)
Theorem downgrade_sql_target app w env tag x_arg d :
  migrations_dir app = Some d →
  let targets revision :=
    downgrade_targets
      (log (exec (cli_downgrade revision tag true x_arg) app w env).2) in
  targets None = [PStr "head:-1"]
  ∧ targets (Some "-1") = [PStr "head:-1"]
  ∧ ∀ r, r ≠ "-1" → targets (Some r) = [PStr r].
Proof.
  intros Hd targets. subst targets. split; [|split].
  - by rewrite (sql_downgrade_run _ _ _ _ _ _ d).
  - by rewrite (sql_downgrade_run _ _ _ _ _ _ d).
  - intros r Hr. rewrite (sql_downgrade_run _ _ _ _ _ _ d) by done.
    simpl. by destruct (String.eqb_spec r "-1").
Qed.

Lemma downgrade_sql_target_witness :
  migrations_dir sample_app = Some "migrations"
  ∧ downgrade_targets
      (log (exec (cli_downgrade (Some "ae1027a6acf") None true None)
              sample_app sample_world ∅).2) = [PStr "ae1027a6acf"].
Proof.
  split; [reflexivity|].
  apply (downgrade_sql_target sample_app sample_world ∅ None None "migrations");
    [reflexivity | discriminate].
Defined.

(** ** Schema commands *)

Lemma sqlalchemy_db_ok app w s :
  orm_registered app → sqlalchemy_db app w s = (Ok tt, s).
Proof. intros (exts & Hexts & Horm). run. by rewrite Hexts, Horm. Qed.

(** C4: when the interactive confirmation is declined (answered no, or
    the prompt interrupted), [drop-all] is aborted without calling the
    ORM's [drop_all], and [reset-all] calls neither [drop_all] nor
    [create_all]. *)
Theorem declined_confirmation_calls_nothing app w env :
  confirm_reply w ≠ ReplyYes →
  (exec (cli_drop_all false) app w env).1 = Raise Abort
  ∧ count is_drop (log (exec (cli_drop_all false) app w env).2) = 0
  ∧ count is_drop (log (exec cli_reset_all app w env).2) = 0
  ∧ count is_create (log (exec cli_reset_all app w env).2) = 0.
Proof.
  intros Hno. unfold cli_drop_all, cli_reset_all.
  rewrite !call_nullary by done. simpl. run. simpl.
  by destruct (confirm_reply w).
Qed.

Lemma declined_confirmation_calls_nothing_witness :
  let w := {| confirm_reply := ReplyNo; orm_drop_all := None;
              orm_create_all := None; child := λ _ _, Exited 0;
              engine := λ _, None |} in
  confirm_reply w ≠ ReplyYes
  ∧ count is_drop (log (exec cli_reset_all sample_app w ∅).2) = 0.
Proof.
  intros w. split; [discriminate|].
  apply (declined_confirmation_calls_nothing sample_app w ∅). discriminate.
Defined.

(** What a confirmed [reset-all] does when the ORM is there and its drop
    returns. *)
Lemma reset_all_confirmed_log app w env :
  confirm_reply w = ReplyYes →
  orm_registered app →
  orm_drop_all w = None →
  log (exec cli_reset_all app w env).2 =
    [EConfirm "Are you sure you want to drop all data?";
     ELog "dropping all"; EDropAll; ELog "creating all"; ECreateAll].
Proof.
  intros Hyes (exts & Hexts & Horm) Hdrop. unfold cli_reset_all.
  rewrite call_nullary by done. simpl. run. simpl.
  rewrite Hyes, Hexts. simpl. rewrite Horm, Hdrop. simpl.
  by destruct (orm_create_all w).
Qed.

(** C5 (as stated, refuted): confirmation alone does not give one drop
    and one create.  When the drop raises, the exception ends the
    command and [create_all] is not called; and in an application with
    no ORM under ['sqlalchemy'] the lookup fails before [drop_all]. *)
Lemma reset_all_confirmed_without_create :
  (confirm_reply failing_world = ReplyYes
   ∧ count is_drop (log (exec cli_reset_all sample_app failing_world ∅).2) = 1
   ∧ count is_create (log (exec cli_reset_all sample_app failing_world ∅).2) = 0
   ∧ count is_create (log (exec cli_reset_all sample_app failing_world ∅).2) ≠ 1)
  ∧ (confirm_reply sample_world = ReplyYes
     ∧ count is_drop (log (exec cli_reset_all no_orm_app sample_world ∅).2) = 0
     ∧ count is_drop (log (exec cli_reset_all no_orm_app sample_world ∅).2) ≠ 1).
Proof.
  split.
  - split; [reflexivity|]. split; [reflexivity|]. split; [reflexivity|].
    intros H. vm_compute in H. discriminate H.
  - split; [reflexivity|]. split; [reflexivity|].
    intros H. vm_compute in H. discriminate H.
Qed.

(** C5 (amended): a confirmed [reset-all], run where the ORM handle is
    registered and its drop operation returns, calls [drop_all] exactly
    once and [create_all] exactly once, the drop before the create. *)
Theorem reset_all_drops_then_creates app w env :
  confirm_reply w = ReplyYes →
  orm_registered app →
  orm_drop_all w = None →
  count is_drop (log (exec cli_reset_all app w env).2) = 1
  ∧ count is_create (log (exec cli_reset_all app w env).2) = 1
  ∧ ∃ before between after,
      log (exec cli_reset_all app w env).2 =
        before ++ EDropAll :: between ++ ECreateAll :: after
      ∧ count is_create before = 0.
Proof.
  intros Hyes Horm Hdrop.
  rewrite (reset_all_confirmed_log app w env Hyes Horm Hdrop).
  split; [reflexivity|]. split; [reflexivity|].
  by exists [EConfirm "Are you sure you want to drop all data?";
             ELog "dropping all"], [ELog "creating all"], [].
Qed.

Lemma reset_all_drops_then_creates_witness :
  confirm_reply sample_world = ReplyYes
  ∧ orm_registered sample_app
  ∧ orm_drop_all sample_world = None
  ∧ count is_drop (log (exec cli_reset_all sample_app sample_world ∅).2) = 1.
Proof.
  assert (Horm : orm_registered sample_app)
    by (eexists; split; reflexivity).
  split; [reflexivity|]. split; [exact Horm|]. split; [reflexivity|].
  apply (reset_all_drops_then_creates sample_app sample_world ∅);
    [reflexivity | exact Horm | reflexivity].
Defined.

(** If the drop raises, the exception propagates and nothing is created. *)
Lemma reset_all_drop_raises app w env e :
  confirm_reply w = ReplyYes →
  orm_registered app →
  orm_drop_all w = Some e →
  (exec cli_reset_all app w env).1 = Raise e
  ∧ count is_create (log (exec cli_reset_all app w env).2) = 0.
Proof.
  intros Hyes (exts & Hexts & Horm) Hdrop. unfold cli_reset_all.
  rewrite call_nullary by done. simpl. run. simpl.
  rewrite Hyes, Hexts. simpl. by rewrite Horm, Hdrop.
Qed.

(** ** Backup and restore *)

Ltac run_backup :=
  unfold cli_dump, cli_restore; rewrite ?call_location by done;
  simpl; run; simpl.

Ltac case_config :=
  repeat match goal with
    | H : config ?a !! ?k = _ |- context [config ?a !! ?k] => rewrite H; simpl
    | |- context [config ?a !! ?k] => destruct (config a !! k) eqn:?; simpl
    | |- context [child ?w ?a ?e] => destruct (child w a e) eqn:?; simpl
    end.

Section Configured.
(** An application whose configuration has the five settings. *)
Variables (app : App) (pw bin host user db : string).
Hypothesis Hpw : config app !! "PG_PASSWORD" = Some pw.
Hypothesis Hbin : config app !! "PG_BIN_DIR" = Some bin.
Hypothesis Hhost : config app !! "PG_HOST" = Some host.
Hypothesis Huser : config app !! "PG_USERNAME" = Some user.
Hypothesis Hdb : config app !! "PG_DB_NAME" = Some db.

Lemma dump_configured w env location :
  let argv := dump_argv bin host user db location in
  let env' := <["PGPASSWORD" := pw]> env in
  exec (cli_dump location) app w env =
    (match child w argv env' with
     | Exited _ => Ok tt
     | NotStarted e => Raise e
     end,
     {| environ := env';
        log := [ESetEnv "PGPASSWORD" pw; ESpawn argv env'] |}).
Proof. run_backup. unfold dump_argv. by case_config. Qed.

Lemma restore_configured w env location :
  let argv := restore_argv bin host user db location in
  let env' := <["PGPASSWORD" := pw]> env in
  exec (cli_restore location) app w env =
    (match child w argv env' with
     | Exited _ => Ok tt
     | NotStarted e => Raise e
     end,
     {| environ := env';
        log := [ESetEnv "PGPASSWORD" pw; ESpawn argv env'] |}).
Proof. run_backup. unfold restore_argv. by case_config. Qed.
End Configured.



(** X17: the password is read first: without it either command raises
    [KeyError('PG_PASSWORD')] before touching the environment or
    starting a child, whatever else is configured. *)
Lemma backup_needs_password app w env location :
  config app !! "PG_PASSWORD" = None →
  exec (cli_dump location) app w env =
    (Raise (KeyError "PG_PASSWORD"), {| environ := env; log := [] |})
  ∧ exec (cli_restore location) app w env =
      (Raise (KeyError "PG_PASSWORD"), {| environ := env; log := [] |}).
Proof. intros Hpw. split; run_backup; by rewrite Hpw. Qed.

(** No separator is put between [PG_BIN_DIR] and the program name. *)
Example bin_dir_without_trailing_slash :
  let app := {| config := <["PG_BIN_DIR" := "/usr/bin"]> (config sample_app);
                extensions := extensions sample_app |} in
  spawned (log (exec (cli_dump None) app sample_world ∅).2) =
    [["/usr/binpg_dump"; "--host=db1"; "--username=admin"; "--format=c";
      "app"; "--file=db.pg_dump"]].
Proof. reflexivity. Qed.

(** C2 (as stated, refuted): besides the binary path the list [dump]
    builds has five entries, not the four the claim allows: [--format=c]
    sits between the username and the database name. *)
Lemma dump_passes_format_flag :
  spawned (log (exec (cli_dump (Some "out.dump"))
                  sample_app sample_world ∅).2) =
    [["/usr/bin/pg_dump"; "--host=db1"; "--username=admin"; "--format=c";
      "app"; "--file=out.dump"]]
  ∧ ¬ ∃ binary host user db out,
        spawned (log (exec (cli_dump (Some "out.dump"))
                        sample_app sample_world ∅).2) =
          [[binary; host; user; db; out]].
Proof.
  split; [reflexivity|].
  intros (binary & host & user & db & out & H). vm_compute in H. discriminate H.
Qed.

(** C2 (amended): for every [dump] invocation in an application whose
    configuration has the five settings, exactly one argument list is
    handed to the child: the binary path, the host option, the username
    option, the fixed [--format=c], the database name and the output
    file option, in this order and nothing else. *)
Theorem dump_argument_list app pw bin host user db w env location :
  configured app pw bin host user db →
  spawned (log (exec (cli_dump location) app w env).2) =
    [[bin +:+ "pg_dump"; "--host=" +:+ host; "--username=" +:+ user;
      "--format=c"; db;
      "--file=" +:+ default DEFAULT_DB_BACKUP_PATH location]].
Proof.
  intros (Hpw & Hbin & Hhost & Huser & Hdb).
  by rewrite (dump_configured app pw bin host user db).
Qed.

Lemma sample_app_configured :
  configured sample_app "s3cret" "/usr/bin/" "db1" "admin" "app".
Proof. by repeat split. Qed.

Lemma dump_argument_list_witness :
  configured sample_app "s3cret" "/usr/bin/" "db1" "admin" "app"
  ∧ spawned (log (exec (cli_dump None) sample_app sample_world ∅).2) =
      [["/usr/bin/pg_dump"; "--host=db1"; "--username=admin"; "--format=c";
        "app"; "--file=db.pg_dump"]].
Proof.
  split; [exact sample_app_configured|].
  apply (dump_argument_list sample_app "s3cret" "/usr/bin/" "db1" "admin" "app").
  exact sample_app_configured.
Defined.

(** C3: [restore] with location [backup.dump], in an application whose
    configuration maps [PG_HOST] to [db1], [PG_USERNAME] to [admin] and
    [PG_DB_NAME] to [app] (and has a password and a [PG_BIN_DIR], from
    which the binary path is made), hands the child exactly
    [[pg_restore_path; --host=db1; --username=admin; --dbname=app;
    --clean; backup.dump]]. *)
Theorem restore_example app pw bin w env :
  configured app pw bin "db1" "admin" "app" →
  spawned (log (exec (cli_restore (Some "backup.dump")) app w env).2) =
    [[bin +:+ "pg_restore"; "--host=db1"; "--username=admin"; "--dbname=app";
      "--clean"; "backup.dump"]].
Proof.
  intros (Hpw & Hbin & Hhost & Huser & Hdb).
  by rewrite (restore_configured app pw bin "db1" "admin" "app").
Qed.

Lemma restore_example_witness :
  configured sample_app "s3cret" "/usr/bin/" "db1" "admin" "app"
  ∧ spawned (log (exec (cli_restore (Some "backup.dump"))
                    sample_app sample_world ∅).2) =
      [["/usr/bin/pg_restore"; "--host=db1"; "--username=admin";
        "--dbname=app"; "--clean"; "backup.dump"]].
Proof.
  split; [exact sample_app_configured|].
  apply (restore_example sample_app "s3cret" "/usr/bin/").
  exact sample_app_configured.
Defined.

Ltac in_log H :=
  repeat (apply elem_of_cons in H as [H|H]; [try discriminate H|]);
  try (by apply elem_of_nil in H).

(** C7: [dump] and [restore] set the process environment variable
    [PGPASSWORD] to the [PG_PASSWORD] value of the application
    configuration, and they do so first: the assignment opens the log,
    and the environment any child is started with already holds it. *)
Theorem password_exported_before_child app w env location pw :
  config app !! "PG_PASSWORD" = Some pw →
  ∀ cmd, cmd = cli_dump location ∨ cmd = cli_restore location →
    environ (exec cmd app w env).2 !! "PGPASSWORD" = Some pw
    ∧ (∃ rest, log (exec cmd app w env).2 = ESetEnv "PGPASSWORD" pw :: rest)
    ∧ ∀ args child_env,
        ESpawn args child_env ∈ log (exec cmd app w env).2 →
        child_env !! "PGPASSWORD" = Some pw.
Proof.
  intros Hpw cmd [-> | ->]; run_backup; rewrite Hpw; simpl; case_config;
    (split; [by rewrite lookup_insert_eq|]); (split; [by eexists|]);
    intros args child_env Hin; in_log Hin;
    injection Hin as _ ->; by rewrite lookup_insert_eq.
Qed.

Lemma password_exported_before_child_witness :
  config sample_app !! "PG_PASSWORD" = Some "s3cret"
  ∧ environ (exec (cli_dump None) sample_app sample_world ∅).2
      !! "PGPASSWORD" = Some "s3cret".
Proof.
  split; [reflexivity|].
  apply (password_exported_before_child sample_app sample_world ∅ None "s3cret");
    [reflexivity | by left].
Defined.

(** C8: the exit code of the child does not reach the result of [dump]
    or [restore]: two worlds that differ only in the code the child exits
    with give the same result, environment and log; whenever a child was
    run the command returns normally, and it was run once (no retry). *)
Theorem exit_code_not_inspected app w env location code code' :
  ∀ cmd, cmd = cli_dump location ∨ cmd = cli_restore location →
    exec cmd app (exits code w) env = exec cmd app (exits code' w) env
    ∧ (spawned (log (exec cmd app (exits code w) env).2) ≠ [] →
       (exec cmd app (exits code w) env).1 = Ok tt
       ∧ count is_spawn (log (exec cmd app (exits code w) env).2) = 1).
Proof.
  intros cmd [-> | ->]; run_backup; case_config; by split.
Qed.

Lemma exit_code_not_inspected_witness :
  spawned (log (exec (cli_restore None) sample_app
                  (exits 1 sample_world) ∅).2) ≠ []
  ∧ (exec (cli_restore None) sample_app (exits 1 sample_world) ∅).1 = Ok tt.
Proof.
  assert (H : spawned (log (exec (cli_restore None) sample_app
                              (exits 1 sample_world) ∅).2) ≠ [])
    by (vm_compute; discriminate).
  split; [exact H|].
  apply (exit_code_not_inspected sample_app sample_world ∅ None 1%Z 0%Z
           (cli_restore None) (or_intror eq_refl)).
  exact H.
Defined.



(** * Further properties of the module *)

(** ** The configuration adapter, in full *)

(** X1: with the migrations directory registered, [_get_config] has no
    effect on the state and returns the configuration for
    [<directory>/alembic.ini] whose only main option is the script
    location; a given [-x] value ends up as the single element of
    [cmd_opts.x], and without one [cmd_opts] stays [None]. *)
Theorem get_config_builds x_arg app w s d :
  migrations_dir app = Some d →
  _get_config x_arg app w s = (Ok (built_config d x_arg), s).
Proof.
  intros Hd. unfold _get_config.
  rewrite (bind_ok _ _ _ _ _ _ _ (ext_directory_ok _ w s _ Hd)).
  unfold built_config, set_main_option, set_cmd_opts, Config_new. simpl.
  rewrite insert_empty. by destruct x_arg.
Qed.

Lemma get_config_builds_witness :
  migrations_dir sample_app = Some "migrations"
  ∧ _get_config (PStr "tenant=a") sample_app sample_world
      {| environ := ∅; log := [] |} =
    (Ok {| config_file_name := Some "migrations/alembic.ini";
           main_options := {[ "script_location" := "migrations" ]};
           cmd_opts := Some {| x := Some [PStr "tenant=a"] |} |},
     {| environ := ∅; log := [] |}).
Proof.
  split; [reflexivity|].
  apply (get_config_builds (PStr "tenant=a") sample_app sample_world
           {| environ := ∅; log := [] |} "migrations").
  reflexivity.
Defined.

Lemma run_with_built_config x_arg (F : Config → alembic_call) app w env d :
  migrations_dir app = Some d →
  exec (config ← _get_config x_arg; alembic_command (F config)) app w env =
    (returned (engine w (F (built_config d x_arg))),
     {| environ := env; log := [EAlembic (F (built_config d x_arg))] |}).
Proof.
  intros Hd. unfold exec.
  rewrite (bind_ok _ _ _ _ _ _ _ (get_config_builds x_arg app w _ d Hd)).
  run. simpl. by destruct (engine w _).
Qed.

Lemma run_init app w env d :
  migrations_dir app = Some d →
  exec cli_init app w env =
    (returned (engine w (AInit (built_config d PNone) d "flask")),
     {| environ := env;
        log := [EAlembic (AInit (built_config d PNone) d "flask")] |}).
Proof.
  intros Hd. unfold cli_init, exec. rewrite call_nullary by done. simpl.
  rewrite (bind_ok _ _ _ _ _ _ _ (ext_directory_ok _ w _ _ Hd)).
  unfold built_config, set_config_file_name, set_main_option, Config_new.
  simpl. rewrite insert_empty. run. simpl. by destruct (engine w _).
Qed.

Ltac unfold_migrate :=
  unfold cli_revision, cli_merge, cli_upgrade, cli_downgrade, cli_show,
    cli_history, cli_heads, cli_branches, cli_current, cli_stamp;
  rewrite ?call_revision, ?call_merge, ?call_upgrade, ?call_downgrade,
    ?call_show, ?call_history, ?call_heads, ?call_branches, ?call_stamp,
    ?call_current; simpl.

Ltac with_built_config Hd :=
  match goal with
  | |- context [_get_config ?x ≫= λ config, alembic_command (@?F config)] =>
      rewrite (run_with_built_config x F _ _ _ _ Hd)
  end.

(** ** Migration subcommands, beyond the script location *)

Lemma run_migrate_cli cmd app w env d :
  migrations_dir app = Some d →
  (∀ verbose, cmd ≠ CmdCurrent verbose) →
  ∃ call,
    exec (migrate_cli cmd) app w env =
      (returned (engine w call),
       {| environ := env; log := [EAlembic call] |}).
Proof.
  intros Hd Hcur.
  destruct cmd; simpl; unfold_migrate;
    try (by eexists; apply (run_init _ _ _ _ Hd));
    try (by destruct (Hcur verbose));
    try (eexists; by with_built_config Hd).
Qed.

(** X2: every [migrate] subcommand other than [current], run where the
    migrations directory is registered, makes exactly one call into the
    engine and nothing else; it returns when the engine returns and
    raises what the engine raises; the process environment is left as
    it was. *)
Theorem migrate_subcommand_runs_once cmd app w env d :
  migrations_dir app = Some d →
  (∀ verbose, cmd ≠ CmdCurrent verbose) →
  ∃ call,
    exec (migrate_cli cmd) app w env =
      (returned (engine w call),
       {| environ := env; log := [EAlembic call] |}).
Proof. apply run_migrate_cli. Qed.

Lemma migrate_subcommand_runs_once_witness :
  migrations_dir sample_app = Some "migrations"
  ∧ ∃ call,
      exec (migrate_cli (CmdStamp None false None)) sample_app failing_world ∅ =
        (returned (engine failing_world call),
         {| environ := ∅; log := [EAlembic call] |}).
Proof.
  split; [reflexivity|].
  apply (migrate_subcommand_runs_once (CmdStamp None false None)
           sample_app failing_world ∅ "migrations");
    [reflexivity | discriminate].
Defined.

(** X3: where the application has its extensions but [Migrate] was never
    set up on it, every [migrate] subcommand other than [current] raises
    [KeyError('migrate')] before doing anything: no engine call, no
    change to the environment. *)
Theorem migrate_requires_registration cmd app w env exts :
  extensions app = Some exts →
  exts !! EXT_NAME = None →
  (∀ verbose, cmd ≠ CmdCurrent verbose) →
  exec (migrate_cli cmd) app w env =
    (Raise (KeyError "migrate"), {| environ := env; log := [] |}).
Proof.
  intros Hexts Hnone Hcur.
  assert (Hdir : ∀ s, ext_directory app w s = (Raise (KeyError "migrate"), s)).
  { intros s. run. by rewrite Hexts, Hnone. }
  destruct cmd; simpl; unfold_migrate; try (by destruct (Hcur verbose));
    unfold cli_init, exec, _get_config; rewrite ?call_nullary by done; simpl;
    by rewrite ?run_bind, Hdir.
Qed.

Lemma migrate_requires_registration_witness :
  extensions bare_app = Some ∅
  ∧ exec (migrate_cli (CmdUpgrade None None false None))
      bare_app sample_world ∅ =
    (Raise (KeyError "migrate"), {| environ := ∅; log := [] |}).
Proof.
  split; [reflexivity|].
  apply (migrate_requires_registration (CmdUpgrade None None false None)
           bare_app sample_world ∅ ∅);
    [reflexivity | reflexivity | discriminate].
Defined.

(** X4: [init] hands the engine the same configuration [_get_config]
    builds without [-x] (file [<directory>/alembic.ini], script location
    the directory), the directory itself as the place to create, and the
    template name [flask]. *)
Theorem init_call app w env d :
  migrations_dir app = Some d →
  engine_calls (log (exec cli_init app w env).2) =
    [AInit (built_config d PNone) d "flask"]
  ∧ (exec cli_init app w env).1 =
      returned (engine w (AInit (built_config d PNone) d "flask")).
Proof. intros Hd. by rewrite (run_init _ _ _ _ Hd). Qed.

Lemma init_call_witness :
  migrations_dir sample_app = Some "migrations"
  ∧ engine_calls (log (exec cli_init sample_app sample_world ∅).2) =
      [AInit {| config_file_name := Some "migrations/alembic.ini";
                main_options := {[ "script_location" := "migrations" ]};
                cmd_opts := None |} "migrations" "flask"].
Proof.
  split; [reflexivity|].
  apply (init_call sample_app sample_world ∅ "migrations"). reflexivity.
Defined.

(** X5: [upgrade] never rewrites its target: with or without [--sql] the
    engine gets the revision as typed, [head] when none was typed, with
    the [--sql] flag and the tag as given; the [-x] value travels in
    the configuration. *)
Theorem upgrade_forwards app w env revision tag sql x_arg d :
  migrations_dir app = Some d →
  engine_calls (log (exec (cli_upgrade revision tag sql x_arg) app w env).2) =
    [AUpgrade (built_config d (of_option x_arg))
       (PStr (default "head" revision)) (PBool sql) (of_option tag)].
Proof. intros Hd. unfold_migrate. by with_built_config Hd. Qed.

Lemma upgrade_forwards_witness :
  migrations_dir sample_app = Some "migrations"
  ∧ engine_calls
      (log (exec (cli_upgrade None (Some "nightly") true (Some "tenant=a"))
              sample_app sample_world ∅).2) =
    [AUpgrade (built_config "migrations" (PStr "tenant=a"))
       (PStr "head") (PBool true) (PStr "nightly")].
Proof.
  split; [reflexivity|].
  apply (upgrade_forwards sample_app sample_world ∅ None (Some "nightly")
           true (Some "tenant=a") "migrations").
  reflexivity.
Defined.

(** X6: without [--sql], [downgrade] passes its target through whatever
    it is: the default single step stays [-1]. *)
Theorem downgrade_without_sql_passes_through app w env revision tag x_arg d :
  migrations_dir app = Some d →
  engine_calls
    (log (exec (cli_downgrade revision tag false x_arg) app w env).2) =
    [ADowngrade (built_config d (of_option x_arg))
       (PStr (default "-1" revision)) (PBool false) (of_option tag)].
Proof. intros Hd. unfold_migrate. by with_built_config Hd. Qed.

Lemma downgrade_without_sql_passes_through_witness :
  migrations_dir sample_app = Some "migrations"
  ∧ engine_calls
      (log (exec (cli_downgrade None None false None)
              sample_app sample_world ∅).2) =
    [ADowngrade (built_config "migrations" PNone)
       (PStr "-1") (PBool false) PNone].
Proof.
  split; [reflexivity|].
  apply (downgrade_without_sql_passes_through sample_app sample_world ∅
           None None None "migrations").
  reflexivity.
Defined.

(** X7: the options reach the engine under their own names although
    click declares them in another order than the callbacks take them:
    [history] passes the range as range and the verbosity as verbosity,
    [heads] its two flags each to its own parameter, [stamp] its
    revision ([head] when left out), flag and tag; none of them gets a
    [cmd_opts]. *)
Theorem options_keep_their_names app w env d :
  migrations_dir app = Some d →
  (∀ verbose rev_range,
     engine_calls (log (exec (cli_history verbose rev_range) app w env).2) =
       [AHistory (built_config d PNone) (of_option rev_range) (PBool verbose)])
  ∧ (∀ resolve_dependencies verbose,
       engine_calls
         (log (exec (cli_heads resolve_dependencies verbose) app w env).2) =
         [AHeads (built_config d PNone)
            (PBool verbose) (PBool resolve_dependencies)])
  ∧ (∀ tag sql revision,
       engine_calls (log (exec (cli_stamp tag sql revision) app w env).2) =
         [AStamp (built_config d PNone)
            (PStr (default "head" revision)) (PBool sql) (of_option tag)]).
Proof.
  intros Hd. split; [|split]; intros; unfold_migrate; by with_built_config Hd.
Qed.

Lemma options_keep_their_names_witness :
  migrations_dir sample_app = Some "migrations"
  ∧ engine_calls
      (log (exec (cli_heads true false) sample_app sample_world ∅).2) =
    [AHeads (built_config "migrations" PNone) (PBool false) (PBool true)].
Proof.
  split; [reflexivity|].
  exact (proj1 (proj2 (options_keep_their_names sample_app sample_world ∅
                         "migrations" eq_refl)) true false).
Defined.

(** X8: [revision] passes its eight values on as they are, with [head]
    as the base when [--head] is not given and [None] for every option
    left out; [merge] passes the revisions as the tuple that was typed,
    the empty one included. *)
Theorem revision_and_merge_forward app w env d :
  migrations_dir app = Some d →
  (∀ message autogenerate sql head splice branch_label version_path rev_id,
     engine_calls
       (log (exec (cli_revision message autogenerate sql head splice
                     branch_label version_path rev_id) app w env).2) =
       [ARevision (built_config d PNone) (of_option message)
          (PBool autogenerate) (PBool sql) (PStr (default "head" head))
          (PBool splice) (of_option branch_label) (of_option version_path)
          (of_option rev_id)])
  ∧ (∀ revisions message branch_label rev_id,
       engine_calls
         (log (exec (cli_merge revisions message branch_label rev_id)
                 app w env).2) =
         [AMerge (built_config d PNone) (PTuple revisions)
            (of_option message) (of_option branch_label) (of_option rev_id)]).
Proof.
  intros Hd. split; intros; unfold_migrate; by with_built_config Hd.
Qed.

Lemma revision_and_merge_forward_witness :
  migrations_dir sample_app = Some "migrations"
  ∧ engine_calls
      (log (exec (cli_merge [] (Some "join") None None)
              sample_app sample_world ∅).2) =
    [AMerge (built_config "migrations" PNone) (PTuple [])
       (PStr "join") PNone PNone].
Proof.
  split; [reflexivity|].
  exact (proj2 (revision_and_merge_forward sample_app sample_world ∅
                  "migrations" eq_refl) [] (Some "join") None None).
Defined.

(** ** Registering the extension *)

(** X9: [init_app] stores the directory where the commands read it,
    also on an application object that had no extensions yet; it keeps
    the application's settings and every other extension; registering
    again replaces the earlier registration. *)
Theorem init_app_registers app d kwargs :
  migrations_dir (init_app app d kwargs) = Some d
  ∧ config (init_app app d kwargs) = config app
  ∧ (∀ exts name,
       extensions app = Some exts → name ≠ EXT_NAME →
       ∃ exts', extensions (init_app app d kwargs) = Some exts'
                ∧ exts' !! name = exts !! name)
  ∧ ∀ d' kwargs',
      init_app (init_app app d' kwargs') d kwargs = init_app app d kwargs.
Proof.
  split; [apply migrations_dir_init_app|]. split; [done|]. split.
  - intros exts name Hexts Hname. unfold init_app. rewrite Hexts. simpl.
    eexists. split; [done|]. by rewrite lookup_insert_ne.
  - intros d' kwargs'. unfold init_app. simpl. by rewrite insert_insert_eq.
Qed.

Lemma init_app_registers_witness :
  ∃ exts', extensions (init_app sample_app "db/versions" []) = Some exts'
           ∧ exts' !! "sqlalchemy" = Some SQLAlchemyExt.
Proof.
  destruct (init_app_registers sample_app "db/versions" [])
    as (_ & _ & Hkeep & _).
  destruct (Hkeep _ "sqlalchemy" eq_refl) as (exts' & Hexts' & Hlook);
    [discriminate|].
  exists exts'. split; [exact Hexts'|]. rewrite Hlook. reflexivity.
Defined.

(** X10: after [Migrate(app, directory)] every [migrate] subcommand
    other than [current] works on that directory: its one engine call
    carries the script location [directory]. *)
Theorem migrate_then_command app d kwargs cmd w env :
  (∀ verbose, cmd ≠ CmdCurrent verbose) →
  ∃ app' call,
    Migrate (Some app) d kwargs = Some app'
    ∧ engine_calls (log (exec (migrate_cli cmd) app' w env).2) = [call]
    ∧ get_main_option "script_location" (call_config call) = Some d.
Proof.
  intros Hcur. exists (init_app app d kwargs).
  destruct (run_migrate_cli cmd (init_app app d kwargs) w env d
              (migrations_dir_init_app app d kwargs) Hcur) as [call Hrun].
  exists call. split; [done|].
  assert (Hcalls : engine_calls
            (log (exec (migrate_cli cmd) (init_app app d kwargs) w env).2)
          = [call]) by (by rewrite Hrun).
  split; [done|].
  rewrite <- (migrations_dir_init_app app d kwargs).
  apply (migrate_cli_calls cmd _ w env). rewrite Hcalls. apply list_elem_of_here.
Qed.

Lemma migrate_then_command_witness :
  ∃ app' call,
    Migrate (Some bare_app) "db/versions" [] = Some app'
    ∧ engine_calls
        (log (exec (migrate_cli (CmdShow None)) app' sample_world ∅).2) = [call]
    ∧ get_main_option "script_location" (call_config call) = Some "db/versions".
Proof.
  apply (migrate_then_command bare_app "db/versions" [] (CmdShow None)
           sample_world ∅).
  discriminate.
Defined.

(** ** Schema commands, in full *)

Ltac run_schema :=
  unfold cli_create_all, cli_drop_all, cli_reset_all;
  rewrite ?call_nullary by done; simpl; run; simpl.

(** X11: [create-all] asks nothing: whatever the user would answer at a
    prompt, with the ORM registered it logs, calls [create_all] once,
    never [drop_all], and returns or raises as that call does. *)
Theorem create_all_unconditional app w env :
  orm_registered app →
  exec cli_create_all app w env =
    (returned (orm_create_all w),
     {| environ := env; log := [ELog "creating all"; ECreateAll] |}).
Proof.
  intros (exts & Hexts & Horm). run_schema. rewrite Hexts. simpl.
  rewrite Horm. simpl. by destruct (orm_create_all w).
Qed.

Lemma sample_app_orm : orm_registered sample_app.
Proof. eexists. split; reflexivity. Qed.

Lemma create_all_unconditional_witness :
  orm_registered sample_app
  ∧ exec cli_create_all sample_app failing_world ∅ =
      (Ok tt, {| environ := ∅; log := [ELog "creating all"; ECreateAll] |}).
Proof.
  split; [exact sample_app_orm|].
  apply (create_all_unconditional sample_app failing_world ∅).
  exact sample_app_orm.
Defined.



(** X13: where no ORM is registered under ['sqlalchemy'], the schema
    commands raise [KeyError('sqlalchemy')] without calling the ORM;
    the log line is written before the lookup, so [create-all] and
    [drop-all --yes] have already announced what they did not do. *)
Theorem schema_commands_need_orm app w env exts :
  extensions app = Some exts →
  exts !! "sqlalchemy" = None →
  exec cli_create_all app w env =
    (Raise (KeyError "sqlalchemy"),
     {| environ := env; log := [ELog "creating all"] |})
  ∧ exec (cli_drop_all true) app w env =
      (Raise (KeyError "sqlalchemy"),
       {| environ := env; log := [ELog "dropping all"] |})
  ∧ (confirm_reply w = ReplyYes →
     exec cli_reset_all app w env =
       (Raise (KeyError "sqlalchemy"),
        {| environ := env;
           log := [EConfirm "Are you sure you want to drop all data?";
                   ELog "dropping all"] |})).
Proof.
  intros Hexts Hnone. split; [|split; [|intros Hyes]]; run_schema;
    rewrite ?Hyes, Hexts; simpl; by rewrite Hnone.
Qed.

Lemma schema_commands_need_orm_witness :
  extensions bare_app = Some ∅
  ∧ exec cli_create_all bare_app sample_world ∅ =
      (Raise (KeyError "sqlalchemy"),
       {| environ := ∅; log := [ELog "creating all"] |}).
Proof.
  split; [reflexivity|].
  exact (proj1 (schema_commands_need_orm bare_app sample_world ∅ ∅
                  eq_refl eq_refl)).
Defined.

(** X14: when the drop of a confirmed [reset-all] raises, the exception
    leaves the command as it is and [create_all] is not called. *)
Theorem reset_all_stops_at_failed_drop app w env e :
  confirm_reply w = ReplyYes →
  orm_registered app →
  orm_drop_all w = Some e →
  exec cli_reset_all app w env =
    (Raise e,
     {| environ := env;
        log := [EConfirm "Are you sure you want to drop all data?";
                ELog "dropping all"; EDropAll] |}).
Proof.
  intros Hyes (exts & Hexts & Horm) Hdrop. run_schema.
  rewrite Hyes, Hexts. simpl. by rewrite Horm, Hdrop.
Qed.

Lemma reset_all_stops_at_failed_drop_witness :
  confirm_reply failing_world = ReplyYes
  ∧ orm_registered sample_app
  ∧ (exec cli_reset_all sample_app failing_world ∅).1 =
      Raise (Foreign "OperationalError").
Proof.
  split; [reflexivity|]. split; [exact sample_app_orm|].
  rewrite (reset_all_stops_at_failed_drop sample_app failing_world ∅
             (Foreign "OperationalError") eq_refl sample_app_orm eq_refl).
  reflexivity.
Defined.

(** X15: the schema commands leave the process environment alone, start
    no child process and never call the migration engine, in every
    application and world. *)
Theorem schema_commands_stay_in_orm app w env yes :
  ∀ cmd, cmd = cli_create_all ∨ cmd = cli_drop_all yes ∨ cmd = cli_reset_all →
    environ (exec cmd app w env).2 = env
    ∧ count is_spawn (log (exec cmd app w env).2) = 0
    ∧ count is_alembic (log (exec cmd app w env).2) = 0.
Proof.
  intros cmd Hcmd.
  destruct (extensions app) as [exts|] eqn:Hexts;
    [destruct (exts !! "sqlalchemy") as [[?|]|] eqn:Horm|];
    destruct (confirm_reply w) eqn:Hreply;
    destruct (orm_drop_all w) eqn:Hdrop;
    destruct (orm_create_all w) eqn:Hcreate;
    destruct yes; destruct Hcmd as [-> | [-> | ->]]; run_schema;
    repeat (rewrite ?Hreply, ?Hexts, ?Horm, ?Hdrop, ?Hcreate; simpl);
    done.
Qed.

Lemma schema_commands_stay_in_orm_witness :
  environ (exec cli_reset_all sample_app sample_world
             {[ "PATH" := "/usr/bin" ]}).2 = {[ "PATH" := "/usr/bin" ]}.
Proof.
  apply (schema_commands_stay_in_orm sample_app sample_world
           {[ "PATH" := "/usr/bin" ]} false cli_reset_all).
  right. right. reflexivity.
Defined.

(** X16: declining [reset-all] is not an error: answered no, the command
    returns normally having only shown its question; an interrupted
    prompt aborts it. *)
Theorem reset_all_declined app w env :
  (confirm_reply w = ReplyNo →
   exec cli_reset_all app w env =
     (Ok tt,
      {| environ := env;
         log := [EConfirm "Are you sure you want to drop all data?"] |}))
  ∧ (confirm_reply w = ReplyInterrupt →
     exec cli_reset_all app w env =
       (Raise Abort,
        {| environ := env;
           log := [EConfirm "Are you sure you want to drop all data?"] |})).
Proof. split; intros Hreply; run_schema; by rewrite Hreply. Qed.

Lemma reset_all_declined_witness :
  let w := {| confirm_reply := ReplyNo; orm_drop_all := None;
              orm_create_all := None; child := λ _ _, Exited 0;
              engine := λ _, None |} in
  (exec cli_reset_all sample_app w ∅).1 = Ok tt.
Proof.
  intros w.
  rewrite (proj1 (reset_all_declined sample_app w ∅) eq_refl). reflexivity.
Defined.

(** ** Backup and restore, in full *)

Lemma backup_needs_password_witness :
  config bare_app !! "PG_PASSWORD" = None
  ∧ exec (cli_restore None) bare_app sample_world ∅ =
      (Raise (KeyError "PG_PASSWORD"), {| environ := ∅; log := [] |}).
Proof.
  split; [reflexivity|].
  exact (proj2 (backup_needs_password bare_app sample_world ∅ None eq_refl)).
Defined.

(** X18: no variable of the process environment other than [PGPASSWORD]
    is changed by [dump] or [restore], however the run ends. *)
Theorem backup_changes_only_pgpassword app w env location name :
  name ≠ "PGPASSWORD" →
  ∀ cmd, cmd = cli_dump location ∨ cmd = cli_restore location →
    environ (exec cmd app w env).2 !! name = env !! name.
Proof.
  intros Hname cmd [-> | ->]; run_backup; case_config;
    by rewrite ?lookup_insert_ne.
Qed.

Lemma backup_changes_only_pgpassword_witness :
  environ (exec (cli_dump None) sample_app sample_world
             {[ "PATH" := "/usr/bin" ]}).2 !! "PATH" = Some "/usr/bin".
Proof.
  rewrite (backup_changes_only_pgpassword sample_app sample_world
             {[ "PATH" := "/usr/bin" ]} None "PATH");
    [reflexivity | discriminate | by left].
Defined.

(** X19: with the password and [PG_BIN_DIR] there, a missing connection
    setting raises [KeyError] for the first one missing in the order
    host, username, database name; by then [PGPASSWORD] is set and it
    stays set, and no child is started. *)
Theorem backup_missing_setting app w env location pw bin :
  config app !! "PG_PASSWORD" = Some pw →
  config app !! "PG_BIN_DIR" = Some bin →
  ∀ cmd, cmd = cli_dump location ∨ cmd = cli_restore location →
    let stopped key :=
      exec cmd app w env =
        (Raise (KeyError key),
         {| environ := <["PGPASSWORD" := pw]> env;
            log := [ESetEnv "PGPASSWORD" pw] |}) in
    (config app !! "PG_HOST" = None → stopped "PG_HOST")
    ∧ (∀ host, config app !! "PG_HOST" = Some host →
         config app !! "PG_USERNAME" = None → stopped "PG_USERNAME")
    ∧ (∀ host user, config app !! "PG_HOST" = Some host →
         config app !! "PG_USERNAME" = Some user →
         config app !! "PG_DB_NAME" = None → stopped "PG_DB_NAME").
Proof.
  intros Hpw Hbin cmd [-> | ->]; (split; [|split]); intros; run_backup;
    by case_config.
Qed.

Lemma backup_missing_setting_witness :
  let app := {| config := {[ "PG_PASSWORD" := "s3cret";
                             "PG_BIN_DIR" := "/usr/bin/";
                             "PG_HOST" := "db1" ]};
                extensions := None |} in
  exec (cli_dump None) app sample_world ∅ =
    (Raise (KeyError "PG_USERNAME"),
     {| environ := {[ "PGPASSWORD" := "s3cret" ]};
        log := [ESetEnv "PGPASSWORD" "s3cret"] |}).
Proof.
  intros app.
  exact (proj1 (proj2 (backup_missing_setting app sample_world ∅ None
                         "s3cret" "/usr/bin/" eq_refl eq_refl
                         (cli_dump None) (or_introl eq_refl)))
           "db1" eq_refl eq_refl).
Defined.

(** X20: when the child cannot be started, the exception of
    [subprocess.call] leaves [dump] and [restore] unchanged, after the
    one attempt and with [PGPASSWORD] set. *)
Theorem backup_launch_failure app pw bin host user db w env location e :
  configured app pw bin host user db →
  (∀ argv child_env, child w argv child_env = NotStarted e) →
  ∀ cmd, cmd = cli_dump location ∨ cmd = cli_restore location →
    (exec cmd app w env).1 = Raise e
    ∧ count is_spawn (log (exec cmd app w env).2) = 1
    ∧ environ (exec cmd app w env).2 !! "PGPASSWORD" = Some pw.
Proof.
  intros (Hpw & Hbin & Hhost & Huser & Hdb) Hchild cmd [-> | ->].
  - rewrite (dump_configured app pw bin host user db) by done. simpl.
    by rewrite Hchild, lookup_insert_eq.
  - rewrite (restore_configured app pw bin host user db) by done. simpl.
    by rewrite Hchild, lookup_insert_eq.
Qed.

Lemma backup_launch_failure_witness :
  configured sample_app "s3cret" "/usr/bin/" "db1" "admin" "app"
  ∧ (exec (cli_dump None) sample_app failing_world ∅).1 =
      Raise (Foreign "FileNotFoundError").
Proof.
  split; [exact sample_app_configured|].
  apply (backup_launch_failure sample_app "s3cret" "/usr/bin/" "db1" "admin"
           "app" failing_world ∅ None (Foreign "FileNotFoundError")
           sample_app_configured (λ _ _, eq_refl) (cli_dump None)
           (or_introl eq_refl)).
Defined.

(** X21: for every [restore] invocation in an application with the five
    settings, the one argument list handed to the child is the binary
    path, the host, username and database options, [--clean], and the
    location as typed ([db.pg_dump] when left out). *)
Theorem restore_argument_list app pw bin host user db w env location :
  configured app pw bin host user db →
  spawned (log (exec (cli_restore location) app w env).2) =
    [[bin +:+ "pg_restore"; "--host=" +:+ host; "--username=" +:+ user;
      "--dbname=" +:+ db; "--clean";
      default "db.pg_dump" location]].
Proof.
  intros (Hpw & Hbin & Hhost & Huser & Hdb).
  by rewrite (restore_configured app pw bin host user db).
Qed.

Lemma restore_argument_list_witness :
  configured sample_app "s3cret" "/usr/bin/" "db1" "admin" "app"
  ∧ spawned (log (exec (cli_restore None) sample_app sample_world ∅).2) =
      [["/usr/bin/pg_restore"; "--host=db1"; "--username=admin";
        "--dbname=app"; "--clean"; "db.pg_dump"]].
Proof.
  split; [exact sample_app_configured|].
  exact (restore_argument_list sample_app "s3cret" "/usr/bin/" "db1" "admin"
           "app" sample_world ∅ None sample_app_configured).
Defined.

(** X22: [restore] reads the file [dump] writes: for the same location
    option, and so also for none, the last argument of [restore] is the
    path behind [--file=] in the last argument of [dump]. *)
Theorem restore_reads_what_dump_writes app pw bin host user db w env location :
  configured app pw bin host user db →
  ∃ path dump_args restore_args,
    spawned (log (exec (cli_dump location) app w env).2) = [dump_args]
    ∧ spawned (log (exec (cli_restore location) app w env).2) = [restore_args]
    ∧ last dump_args = Some ("--file=" +:+ path)
    ∧ last restore_args = Some path.
Proof.
  intros (Hpw & Hbin & Hhost & Huser & Hdb).
  exists (default DEFAULT_DB_BACKUP_PATH location).
  rewrite (dump_configured app pw bin host user db),
          (restore_configured app pw bin host user db) by done.
  by eexists _, _.
Qed.

Lemma restore_reads_what_dump_writes_witness :
  ∃ path dump_args restore_args,
    spawned (log (exec (cli_dump (Some "nightly.dump"))
                    sample_app sample_world ∅).2) = [dump_args]
    ∧ spawned (log (exec (cli_restore (Some "nightly.dump"))
                      sample_app sample_world ∅).2) = [restore_args]
    ∧ last dump_args = Some ("--file=" +:+ path)
    ∧ last restore_args = Some path.
Proof.
  exact (restore_reads_what_dump_writes sample_app "s3cret" "/usr/bin/" "db1"
           "admin" "app" sample_world ∅ (Some "nightly.dump")
           sample_app_configured).
Defined.

(** X23: [dump] and [restore] do nothing but set one environment
    variable and start at most one child: no prompt, no ORM call, no
    call into the migration engine, in every application and world. *)
Theorem backup_effects app w env location :
  ∀ cmd, cmd = cli_dump location ∨ cmd = cli_restore location →
    (∀ e, e ∈ log (exec cmd app w env).2 →
       (∃ value, e = ESetEnv "PGPASSWORD" value)
       ∨ (∃ args child_env, e = ESpawn args child_env))
    ∧ (count is_spawn (log (exec cmd app w env).2) ≤ 1)%nat.
Proof.
  intros cmd [-> | ->]; run_backup; case_config;
    (split; [intros ev Hin; in_log Hin; subst; by eauto | unfold count; simpl; lia]).
Qed.

Lemma backup_effects_witness :
  (count is_spawn
     (log (exec (cli_dump None) sample_app sample_world ∅).2) ≤ 1)%nat.
Proof.
  apply (backup_effects sample_app sample_world ∅ None (cli_dump None)).
  by left.
Defined.
